(** * Jobly: the partial-update clause builder and the Job and Company models

    A shallow embedding of [helpers/sql.js], [models/job.js] and
    [models/company.js].  Part I holds the definitions, in the order of the
    source files; Part II holds the properties proved about them. *)

From Stdlib Require Import Ascii PrimFloat Uint63 SpecFloat FloatOps.
From stdpp Require Import base strings list gmap pretty.

Local Open Scope string_scope.
Local Open Scope list_scope.
Local Open Scope nat_scope.
Local Open Scope stdpp_scope.
Set Warnings "-register-all".

(** * Part I: definitions *)

(** ** JavaScript values and the built-ins the source relies on *)

Module JS.

(** A JavaScript value.  Numbers are IEEE doubles, as in the language. *)
Inductive value : Type :=
| VUndefined
| VNull
| VBool (b : bool)
| VNum (x : float)
| VStr (s : string)
| VArr (elems : list value)
| VObj (props : list (string * value)).

(** An object seen through [Object.keys] / [Object.values]: its own
    enumerable string-keyed properties, listed in the order in which the
    engine enumerates them.  That order is the iteration order of the map. *)
Abbreviation object := (list (string * value)).

Definition Object_keys (o : object) : list string := o.*1.
Definition Object_values (o : object) : list value := o.*2.

(** ToBoolean. *)
Definition truthy (v : value) : bool :=
  match v with
  | VUndefined | VNull => false
  | VBool b => b
  | VNum x => negb (PrimFloat.eqb x 0 || PrimFloat.is_nan x)
  | VStr s => negb (String.eqb s "")
  | VArr _ | VObj _ => true
  end.

(** The errors thrown in the source: the two [expressError] classes it
    imports, the engine's [TypeError], and the error class of the database
    driver. *)
Inductive error : Type :=
| BadRequestError (message : string)
| NotFoundError (message : string)
| TypeError (message : string)
| DatabaseError (message : string).

(** The double-quote character, as a one-character string. *)
Definition dquote : string := String (ascii_of_nat 34) "".

(** Rendering of an array index or length inside a template literal:
    such numbers are naturals below 2^32, printed in plain decimal. *)
Definition Number_toString (n : nat) : string := pretty n.

(** [Array.prototype.join] on an array of strings. *)
Definition join (sep : string) (l : list string) : string := String.concat sep l.

(** Members that every object literal inherits from [Object.prototype],
    each with the text a template literal renders for it under Node (V8).
    All of them are objects, hence truthy. *)
Definition native_function (name : string) : string :=
  "function " +:+ name +:+ "() { [native code] }".

Definition Object_prototype (k : string) : option string :=
  if decide (k = "constructor") then Some (native_function "Object")
  else if decide (k = "__proto__") then Some "[object Object]"
  else if decide (k ∈ ["__defineGetter__"; "__defineSetter__"; "hasOwnProperty";
                       "__lookupGetter__"; "__lookupSetter__"; "isPrototypeOf";
                       "propertyIsEnumerable"; "toString"; "valueOf";
                       "toLocaleString"])
       then Some (native_function k)
  else None.

(** A line break, and a template literal that spans several lines. *)
Definition nl : string := String (ascii_of_nat 10) "".
Definition lines (l : list string) : string := join nl l.

(** Reading a property of an object that holds plain data ([o.k]):
    [undefined] when the object has no such property. *)
Fixpoint own (o : list (string * value)) (k : string) : option value :=
  match o with
  | [] => None
  | (k', v) :: o' => if decide (k' = k) then Some v else own o' k
  end.

Definition prop (o : object) (k : string) : value := default VUndefined (own o k).

(** [o.k = v]: overwrite the property in place, or add it last. *)
Fixpoint set_prop (o : list (string * value)) (k : string) (v : value) : object :=
  match o with
  | [] => [(k, v)]
  | (k', v') :: o' => if decide (k' = k) then (k, v) :: o' else (k', v') :: set_prop o' k v
  end.

(** Built-ins of the engine whose full definition lies outside the source:
    the rendering of an arbitrary double, [parseInt] (its result is a
    double, possibly NaN) and [String.prototype.toLowerCase]. *)
Class Engine : Type := {
  Number_repr : float → string;
  parseInt : value → float;
  toLowerCase : string → string
}.

(** ToString, as applied by template literals and by [+] on a string. *)
Fixpoint ToString `{Engine} (v : value) : string :=
  match v with
  | VUndefined => "undefined"
  | VNull => "null"
  | VBool b => if b then "true" else "false"
  | VNum x => Number_repr x
  | VStr s => s
  | VArr elems =>
      join "," (map (λ e, match e with
                          | VUndefined | VNull => ""
                          | _ => ToString e
                          end) elems)
  | VObj _ => "[object Object]"
  end.

Definition number_of_nat (n : nat) : float :=
  PrimFloat.of_uint63 (Uint63.of_Z (Z.of_nat n)).

(** [v.length]. *)
Definition member_length (v : value) : error + value :=
  match v with
  | VUndefined =>
      inl (TypeError "Cannot read properties of undefined (reading 'length')")
  | VNull => inl (TypeError "Cannot read properties of null (reading 'length')")
  | VArr elems => inr (VNum (number_of_nat (length elems)))
  | VStr s => inr (VNum (number_of_nat (String.length s)))
  | VObj props => inr (prop props "length")
  | VBool _ | VNum _ => inr VUndefined
  end.

(** [v + 1]. *)
Definition add_one `{Engine} (v : value) : value :=
  match v with
  | VNum x => VNum (x + 1)%float
  | VUndefined => VNum PrimFloat.nan
  | VNull => VNum 1%float
  | VBool b => VNum (if b then 2 else 1)%float
  | VStr s => VStr (s +:+ "1")
  | VArr _ | VObj _ => VStr (ToString v +:+ "1")
  end.

(** [...v] inside an array literal. *)
Definition spread (name : string) (v : value) : error + list value :=
  match v with
  | VArr elems => inr elems
  | VStr s => inr ((λ c, VStr (String c "")) <$> String.list_ascii_of_string s)
  | _ => inl (TypeError (name +:+ " is not iterable"))
  end.

(** A declared variable holding a string, with the kind of its binding. *)
Inductive binding : Type :=
| Const (v : string)
| Let (v : string).

Definition read (b : binding) : string :=
  match b with Const v | Let v => v end.

(** [b += rhs]: the engine refuses to assign to a [const] binding. *)
Definition append_assign (b : binding) (rhs : string) : error + binding :=
  match b with
  | Const _ => inl (TypeError "Assignment to constant variable.")
  | Let v => inr (Let (v +:+ rhs))
  end.

End JS.

(** ** helpers/sql.js *)

Module Sql.
Import JS.

(** The object returned by [sqlForPartialUpdate]. *)
Record PartialUpdate : Type := { setCols : string; values : list value }.

(** [jsToSql[colName]]: the own entry of the translation table if there is
    one, else the member inherited from [Object.prototype], else
    [undefined] (here [None]).  The table maps property names to column
    names, so own entries are strings. *)
Definition Get (jsToSql : gmap string string) (colName : string) : option string :=
  match jsToSql !! colName with
  | Some v => Some v
  | None => Object_prototype colName
  end.

(** [v || colName] followed by the string conversion of the template
    literal: [undefined] and the empty string are falsy. *)
Definition or_else (v : option string) (colName : string) : string :=
  match v with
  | Some s => if truthy (VStr s) then s else colName
  | None => colName
  end.

(** The template literal of the callback of [keys.map], given what
    [jsToSql[colName]] evaluated to. *)
Definition template (v : option string) (colName : string) (idx : nat) : string :=
  dquote +:+ or_else v colName +:+ dquote +:+ "=$" +:+ Number_toString (idx + 1).

(** The callback of [keys.map]; [Array.prototype.map] passes the index
    second, [imap] passes it first. *)
Definition fragment (jsToSql : gmap string string) (idx : nat) (colName : string) : string :=
  template (Get jsToSql colName) colName idx.

Definition sqlForPartialUpdate (dataToUpdate : object) (jsToSql : gmap string string)
  : error + PartialUpdate :=
  let keys := Object_keys dataToUpdate in
  if Nat.eqb (length keys) 0 then inl (BadRequestError "No data")
  else
    let cols := imap (fragment jsToSql) keys in
    inr {| setCols := join ", " cols; values := Object_values dataToUpdate |}.

(** The returned object literal, as the caller reads its properties. *)
Definition as_object (r : PartialUpdate) : object :=
  [("setCols", VStr (setCols r)); ("values", VArr (values r))].

End Sql.

(** ** helpers/sql.js over a store of mutable objects

    The same function, with its two arguments passed by reference into a
    store that holds every object of the program.  Each primitive below
    does to the store what the corresponding JavaScript operation does:
    [Object.keys], [map], and [Object.values] read their receiver and
    allocate a fresh array; an object literal allocates a fresh object. *)

Module Heap.
Import JS Sql.

Definition loc : Type := positive.

Inductive cell : Type :=
| CObject (props : object)
| CTable (entries : gmap string string)
| CStrings (elems : list string)
| CValues (elems : list value)
| CResult (setCols : string) (values : loc).

Definition H (A : Type) : Type := gmap loc cell → (error + A) * gmap loc cell.

Global Instance H_ret : MRet H := λ A x h, (inr x, h).

Global Instance H_bind : MBind H := λ A B k m h,
  match m h with
  | (inl e, h') => (inl e, h')
  | (inr x, h') => k x h'
  end.

Global Instance H_throw : MThrow error H := λ A e h, (inl e, h).

Definition alloc (c : cell) : H loc := λ h,
  let l := fresh (dom h) in (inr l, <[l:=c]> h).

Definition not_an (kind : string) : error := TypeError ("not " +:+ kind).

Definition load_object (l : loc) : H object := λ h,
  match h !! l with
  | Some (CObject props) => (inr props, h)
  | _ => (inl (not_an "an object"), h)
  end.

Definition load_strings (l : loc) : H (list string) := λ h,
  match h !! l with
  | Some (CStrings elems) => (inr elems, h)
  | _ => (inl (not_an "an array"), h)
  end.

(** [jsToSql[colName]] *)
Definition Get (jsToSql : loc) (colName : string) : H (option string) := λ h,
  match h !! jsToSql with
  | Some (CTable entries) => (inr (Sql.Get entries colName), h)
  | _ => (inl (not_an "an object"), h)
  end.

Definition Object_keys (o : loc) : H loc :=
  props ← load_object o ; alloc (CStrings (JS.Object_keys props)).

Definition Object_values (o : loc) : H loc :=
  props ← load_object o ; alloc (CValues (JS.Object_values props)).

Definition Array_length (a : loc) : H nat :=
  elems ← load_strings a ; mret (length elems).

(** The callbacks of [map] run one after the other, from index [idx]. *)
Fixpoint map_from (f : string → nat → H string) (idx : nat) (elems : list string)
  : H (list string) :=
  match elems with
  | [] => mret []
  | x :: elems' =>
      y ← f x idx ;
      ys ← map_from f (S idx) elems' ;
      mret (y :: ys)
  end.

Definition Array_map (a : loc) (f : string → nat → H string) : H loc :=
  elems ← load_strings a ;
  out ← map_from f 0 elems ;
  alloc (CStrings out).

Definition Array_join (a : loc) (sep : string) : H string :=
  elems ← load_strings a ; mret (join sep elems).

Definition sqlForPartialUpdate (dataToUpdate jsToSql : loc) : H loc :=
  keys ← Object_keys dataToUpdate ;
  n ← Array_length keys ;
  if Nat.eqb n 0 then mthrow (BadRequestError "No data")
  else
    cols ← Array_map keys (λ colName idx,
                             v ← Get jsToSql colName ;
                             mret (template v colName idx)) ;
    setCols ← Array_join cols ", " ;
    values ← Object_values dataToUpdate ;
    alloc (CResult setCols values).

(** What the caller can read off the outcome of a call: the error thrown,
    or the two properties of the object returned. *)
Definition observe (r : error + loc) (h : gmap loc cell) : option (error + PartialUpdate) :=
  match r with
  | inl e => Some (inl e)
  | inr l =>
      match h !! l with
      | Some (CResult s lv) =>
          match h !! lv with
          | Some (CValues vs) => Some (inr {| setCols := s; values := vs |})
          | _ => None
          end
      | _ => None
      end
  end.

(** A store holding the request and the table of the test suite, at
    addresses 1 and 2. *)
Definition example_heap : gmap loc cell :=
  {[ 1%positive := CObject [("firstName", VStr "Miss"); ("lastName", VStr "Kitty")];
     2%positive := CTable {[ "firstName" := "first_name"; "lastName" := "last_name" ]} ]}.

End Heap.

(** ** db.js: the connection, seen as a state that answers queries *)

Module Db.
Import JS.

Record Query : Type := { text : string; params : list value }.

Abbreviation Row := (list (string * value)).

(** The database behind [db.query]: a query either yields rows or makes
    the driver throw an error of its own (here its message), and may
    change the stored data. *)
Class Database : Type := {
  state : Type;
  execute : Query → state → (string + list Row) * state
}.

Section monad.
Context `{Database}.

(** What a model function can touch: the stored data, and the statements
    sent to the server so far. *)
Record world : Type := { store : state; issued : list Query }.

Definition M (A : Type) : Type := world → (error + A) * world.

Global Instance M_ret : MRet M := λ A x w, (inr x, w).

Global Instance M_bind : MBind M := λ A B k m w,
  match m w with
  | (inl e, w') => (inl e, w')
  | (inr x, w') => k x w'
  end.

Global Instance M_throw : MThrow error M := λ A e w, (inl e, w).

(** A synchronous call that returns or throws. *)
Definition lift {A} (r : error + A) : M A := λ w, (r, w).

(** [await db.query(sql, values)], giving [result.rows]. *)
Definition query (sql : string) (values : list value) : M (list Row) := λ w,
  let q := {| text := sql; params := values |} in
  let '(r, s) := execute q (store w) in
  (match r with
   | inl message => inl (DatabaseError message)
   | inr rows => inr rows
   end,
   {| store := s; issued := issued w ++ [q] |}).

(** The statements a run sent, given the worlds before and after it. *)
Definition sent (w w' : world) : list Query :=
  drop (length (issued w)) (issued w').

(** The world after a run from [w] that sent [qs] and left the stored
    data as [s]. *)
Definition after (w : world) (s : state) (qs : list Query) : world :=
  {| store := s; issued := issued w ++ qs |}.

End monad.

End Db.

(** ** models/job.js *)

Module Job.
Import JS Sql Db.

Section model.
Context `{Engine} `{Database}.

(** The parameter pattern [{ minSalary, hasEquity, title } = {}]: the
    default applies to [undefined]; [null] cannot be destructured; a
    primitive or an array has none of the three properties. *)
Definition destructure (arg : value) : error + object :=
  match arg with
  | VObj props => inr props
  | VNull =>
      inl (TypeError
             ("Cannot destructure property 'minSalary' of "
               +:+ "'(intermediate value)(intermediate value)(intermediate value)'"
               +:+ " as it is null."))
  | _ => inr []
  end.

Definition is_undefined (v : value) : bool :=
  match v with VUndefined => true | _ => false end.

Definition is_true (v : value) : bool :=
  match v with VBool true => true | _ => false end.

Definition findAll_sql : string :=
  lines [ "SELECT j.id, j.title, j.salary, j.equity, j.company_handle AS "
            +:+ dquote +:+ "companyHandle" +:+ dquote +:+ ", c.name AS "
            +:+ dquote +:+ "companyName" +:+ dquote;
          "    FROM jobs j";
          "    LEFT JOIN companies AS c on c.handle = j.company_handle" ].

Definition findAll (arg : value) : M (list Row) :=
  filters ← lift (destructure arg) ;
  let minSalary := prop filters "minSalary" in
  let hasEquity := prop filters "hasEquity" in
  let title := prop filters "title" in
  let query0 := Const findAll_sql in
  let whereClauses : list string := [] in
  let queryVals : list value := [] in
  let '(queryVals, whereClauses) :=
    if negb (is_undefined minSalary) then
      let queryVals := queryVals ++ [minSalary] in
      (queryVals,
       whereClauses ++ ["salary >= $" +:+ Number_toString (length queryVals)])
    else (queryVals, whereClauses) in
  let whereClauses :=
    if is_true hasEquity then whereClauses ++ ["equity > 0"] else whereClauses in
  let '(queryVals, whereClauses) :=
    if negb (is_undefined title) then
      let queryVals := queryVals ++ [VStr ("%" +:+ ToString title +:+ "%")] in
      (queryVals,
       whereClauses ++ ["title ILIKE $" +:+ Number_toString (length queryVals)])
    else (queryVals, whereClauses) in
  query1 ← (if 0 <? length whereClauses
             then lift (append_assign query0
                          (" WHERE " +:+ join " AND " whereClauses))
             else mret query0) ;
  query2 ← lift (append_assign query1 " ORDER BY title") ;
  jobs ← query (read query2) queryVals ;
  mret jobs.

Definition get_sql : string :=
  lines [ "SELECT id, title, salary, equity, company_handle AS "
            +:+ dquote +:+ "companyHandle" +:+ dquote;
          "      FROM jobs";
          "      WHERE if = $1" ].

Definition get_company_sql : string :=
  lines [ "";
          "    SELECT handle, name, description, num_employees AS "
            +:+ dquote +:+ "numEmployees" +:+ dquote +:+ ", logo_url AS "
            +:+ dquote +:+ "logoUrl" +:+ dquote;
          "    FROM companies";
          "    WHERE handle = $1" ].

(** [rows[0]] as a value: a row object, or [undefined]. *)
Definition first_row (rows : list Row) : value :=
  match head rows with Some r => VObj r | None => VUndefined end.

Definition get (id : value) : M Row :=
  jobsResults ← query get_sql [id] ;
  match head jobsResults with
  | None => mthrow (NotFoundError ("Could not find job " +:+ ToString id))
  | Some job =>
      companiesResults ← query get_company_sql [prop job "companyHandle"] ;
      mret (set_prop job "company" (first_row companiesResults))
  end.

Definition update (id : value) (data : object) : M Row :=
  r ← lift (sqlForPartialUpdate data ∅) ;
  let setCols := prop (as_object r) "setCols" in
  let vals := prop (as_object r) "vals" in
  len ← lift (member_length vals) ;
  let idIndex := "$" +:+ ToString (add_one len) in
  let querySql :=
    lines [ "UPDATE jobs";
            "    SET " +:+ ToString setCols;
            "    WHERE id = " +:+ idIndex;
            "    RETURNING id, title, salary, equity, company_handle AS "
              +:+ dquote +:+ "companyHandle" +:+ dquote ] in
  args ← lift (spread "vals" vals) ;
  result ← query querySql (args ++ [id]) ;
  match head result with
  | None => mthrow (NotFoundError ("Could not find job " +:+ ToString id))
  | Some job => mret job
  end.

Definition create_sql : string :=
  lines [ "INSERT INTO jobs (title, salary, equity, company_handle)";
          "      VALUES ($1, $2, $3, $4)";
          "      RETURNING id, title, salary, equity, company_handle AS "
            +:+ dquote +:+ "companyHandle" +:+ dquote ].

(** [data] is the object the documentation asks for; the result is
    [rows[0]], which is [undefined] when the statement returns no row. *)
Definition create (data : object) : M value :=
  result ← query create_sql [ prop data "title"; prop data "salary";
                              prop data "equity"; prop data "companyHandle" ] ;
  mret (first_row result).

Definition remove_sql : string :=
  lines [ "DELETE"; "      FROM jobs"; "      WHERE id = $1"; "      RETURNING id" ].

(** Falls off the end of the function on success: the result is
    [undefined]. *)
Definition remove (id : value) : M value :=
  result ← query remove_sql [id] ;
  match head result with
  | None => mthrow (NotFoundError ("Could not find " +:+ ToString id))
  | Some job => mret VUndefined
  end.

End model.
End Job.

(** ** models/company.js *)

Module Company.
Import JS Sql Db.

Section model.
Context `{Engine} `{Database}.

(** [nameLike.toLowerCase()]: only strings carry the method. *)
Definition call_toLowerCase (v : value) : error + string :=
  match v with
  | VStr s => inr (toLowerCase s)
  | VUndefined =>
      inl (TypeError "Cannot read properties of undefined (reading 'toLowerCase')")
  | VNull =>
      inl (TypeError "Cannot read properties of null (reading 'toLowerCase')")
  | _ => inl (TypeError "nameLike.toLowerCase is not a function")
  end.

(** [a > b] on doubles: false as soon as one side is NaN. *)
Definition gt (a b : float) : bool := PrimFloat.ltb b a.

Definition findByFilters (minEmployees maxEmployees nameLike : value) : M (list Row) :=
  if truthy minEmployees && truthy maxEmployees
     && gt (parseInt minEmployees) (parseInt maxEmployees)
  then mthrow (BadRequestError "min employees cannot be greater than max employees")
  else
    let query0 := "SELECT * FROM companies WHERE 1 = 1" in
    let queryParams : list value := [] in
    let '(query1, queryParams) :=
      if truthy minEmployees then
        let queryParams := queryParams ++ [minEmployees] in
        (query0 +:+ " AND num_employees >= $"
                +:+ Number_toString (length queryParams), queryParams)
      else (query0, queryParams) in
    let '(query2, queryParams) :=
      if truthy maxEmployees then
        let queryParams := queryParams ++ [maxEmployees] in
        (query1 +:+ " AND num_employees <= $"
                +:+ Number_toString (length queryParams), queryParams)
      else (query1, queryParams) in
    '(query3, queryParams) ←
      (if truthy nameLike then
         lower ← lift (call_toLowerCase nameLike) ;
         let queryParams := queryParams ++ [VStr ("%" +:+ lower +:+ "%")] in
         mret (query2 +:+ " AND LOWER(name) LIKE $"
                     +:+ Number_toString (length queryParams), queryParams)
       else mret (query2, queryParams)) ;
    result ← query query3 queryParams ;
    mret result.

Definition duplicateCheck_sql : string :=
  lines [ "SELECT handle"; "           FROM companies"; "           WHERE handle = $1" ].

Definition create_sql : string :=
  lines [ "INSERT INTO companies";
          "           (handle, name, description, num_employees, logo_url)";
          "           VALUES ($1, $2, $3, $4, $5)";
          "           RETURNING handle, name, description, num_employees AS "
            +:+ dquote +:+ "numEmployees" +:+ dquote +:+ ", logo_url AS "
            +:+ dquote +:+ "logoUrl" +:+ dquote ].

(** The parameter is the object the documentation asks for, destructured
    into its five properties. *)
Definition create (arg : object) : M value :=
  let handle := prop arg "handle" in
  let name := prop arg "name" in
  let description := prop arg "description" in
  let numEmployees := prop arg "numEmployees" in
  let logoUrl := prop arg "logoUrl" in
  duplicateCheck ← query duplicateCheck_sql [handle] ;
  match head duplicateCheck with
  | Some _ => mthrow (BadRequestError ("Duplicate company: " +:+ ToString handle))
  | None =>
      result ← query create_sql [handle; name; description; numEmployees; logoUrl] ;
      mret (Job.first_row result)
  end.

Definition select_columns : list string :=
  [ "SELECT handle,";
    "                  name,";
    "                  description,";
    "                  num_employees AS " +:+ dquote +:+ "numEmployees" +:+ dquote +:+ ",";
    "                  logo_url AS " +:+ dquote +:+ "logoUrl" +:+ dquote;
    "           FROM companies" ].

Definition findAll_sql : string :=
  lines (select_columns ++ [ "           ORDER BY name" ]).

(** [db.query] is called without a list of values. *)
Definition findAll : M (list Row) :=
  companiesRes ← query findAll_sql [] ;
  mret companiesRes.

Definition get_sql : string :=
  lines (select_columns ++ [ "           WHERE handle = $1" ]).

Definition get (handle : value) : M Row :=
  companyRes ← query get_sql [handle] ;
  match head companyRes with
  | None => mthrow (NotFoundError ("No company: " +:+ ToString handle))
  | Some company => mret company
  end.

(** The translation table that [update] passes to the builder. *)
Definition update_jsToSql : gmap string string :=
  {[ "numEmployees" := "num_employees"; "logoUrl" := "logo_url" ]}.

Definition update (handle : value) (data : object) : M Row :=
  r ← lift (sqlForPartialUpdate data update_jsToSql) ;
  let setCols := prop (as_object r) "setCols" in
  let values := prop (as_object r) "values" in
  len ← lift (member_length values) ;
  let handleVarIdx := "$" +:+ ToString (add_one len) in
  let querySql :=
    lines [ "UPDATE companies ";
            "                      SET " +:+ ToString setCols +:+ " ";
            "                      WHERE handle = " +:+ handleVarIdx +:+ " ";
            "                      RETURNING handle, ";
            "                                name, ";
            "                                description, ";
            "                                num_employees AS "
              +:+ dquote +:+ "numEmployees" +:+ dquote +:+ ", ";
            "                                logo_url AS "
              +:+ dquote +:+ "logoUrl" +:+ dquote ] in
  args ← lift (spread "values" values) ;
  result ← query querySql (args ++ [handle]) ;
  match head result with
  | None => mthrow (NotFoundError ("No company: " +:+ ToString handle))
  | Some company => mret company
  end.

Definition remove_sql : string :=
  lines [ "DELETE"; "           FROM companies"; "           WHERE handle = $1";
          "           RETURNING handle" ].

Definition remove (handle : value) : M value :=
  result ← query remove_sql [handle] ;
  match head result with
  | None => mthrow (NotFoundError ("No company: " +:+ ToString handle))
  | Some company => mret VUndefined
  end.

End model.
End Company.

(** ** Stand-ins for running the model on examples *)

Module Fixtures.
Import JS Db.

Definition is_digit (c : ascii) : bool :=
  (48 <=? nat_of_ascii c) && (nat_of_ascii c <=? 57).

Fixpoint leading_digits (s : string) (acc : option nat) : option nat :=
  match s with
  | String c s' =>
      if is_digit c
      then leading_digits s' (Some (10 * default 0 acc + (nat_of_ascii c - 48)))
      else acc
  | EmptyString => acc
  end.

Definition lower (c : ascii) : ascii :=
  if (65 <=? nat_of_ascii c) && (nat_of_ascii c <=? 90)
  then ascii_of_nat (nat_of_ascii c + 32) else c.

Fixpoint lower_string (s : string) : string :=
  match s with
  | String c s' => String (lower c) (lower_string s')
  | EmptyString => EmptyString
  end.

(** An engine for examples whose numbers are integers of moderate size and
    whose strings are ASCII: such a number prints in plain decimal,
    [parseInt] reads it as itself, and reads a string by its leading
    decimal digits. *)
Definition small_engine : Engine :=
  {| Number_repr := λ x,
       match Prim2SF x with
       | S754_zero _ => "0"
       | S754_nan => "NaN"
       | S754_infinity s => if s then "-Infinity" else "Infinity"
       | S754_finite s m e =>
           (if s then "-" else "") +:+ pretty (Z.shiftl (Z.pos m) e)
       end;
     parseInt := λ v,
       match v with
       | VNum x => x
       | VStr s => match leading_digits s None with
                   | Some n => number_of_nat n
                   | None => PrimFloat.nan
                   end
       | _ => PrimFloat.nan
       end;
     toLowerCase := lower_string |}.

(** A database that holds one table, answers every statement with all of
    its rows, and never changes. *)
Definition fixed_table : Database :=
  {| state := list Row; execute := λ _ rows, (inr rows, rows) |}.

Definition no_rows : @state fixed_table := @nil (list (string * value)).

Definition empty_world : @world fixed_table := {| store := no_rows; issued := [] |}.

Definition job_row : list (string * value) :=
  [("id", VNum 7); ("title", VStr "dev"); ("salary", VNum 100);
   ("equity", VNull); ("companyHandle", VStr "acme")].

Definition one_row : @state fixed_table := @cons (list (string * value)) job_row [].

Definition one_row_world : @world fixed_table := {| store := one_row; issued := [] |}.

End Fixtures.

(** ** The wire format of the specification *)

Module Spec.
Import JS.

(** An assignment fragment: a double-quoted column identifier, an equals
    sign, and a [$]-prefixed positional placeholder. *)
Definition assignment (column : string) (index : nat) : string :=
  dquote +:+ column +:+ dquote +:+ "=$" +:+ Number_toString index.

(** The same wire format written out from the library alone, for
    statements that must not lean on the definitions of the model: the
    placeholder of a position and a fragment. *)
Definition quote_mark : string := String (ascii_of_nat 34) EmptyString.

Definition placeholder (index : nat) : string := "$" +:+ pretty index.

Definition set_fragment (column : string) (index : nat) : string :=
  quote_mark +:+ column +:+ quote_mark +:+ "=" +:+ placeholder index.

(** The column a key stands for, by cases on the translation table: a
    non-empty own entry; the key itself for an empty own entry; without
    an own entry, the text of the member of [Object.prototype] of that
    name if there is one, else the key itself. *)
Definition column_of (jsToSql : gmap string string) (key : string) : string :=
  match jsToSql !! key with
  | Some EmptyString => key
  | Some column => column
  | None => default key (Object_prototype key)
  end.



End Spec.

(** * Part II: properties *)

(** ** helpers/sql.js *)

Section sql_facts.
Import JS Sql Spec.
Implicit Types (dataToUpdate : object) (jsToSql : gmap string string).

Lemma Object_keys_length dataToUpdate :
  length (Object_keys dataToUpdate) = length dataToUpdate.
Proof. unfold Object_keys. apply length_fmap. Qed.

Lemma Object_values_length dataToUpdate :
  length (Object_values dataToUpdate) = length dataToUpdate.
Proof. unfold Object_values. apply length_fmap. Qed.

Lemma sqlForPartialUpdate_empty jsToSql :
  sqlForPartialUpdate [] jsToSql = inl (BadRequestError "No data").
Proof. reflexivity. Qed.

Lemma sqlForPartialUpdate_nonempty dataToUpdate jsToSql :
  dataToUpdate ≠ [] →
  sqlForPartialUpdate dataToUpdate jsToSql =
    inr {| setCols := join ", " (imap (fragment jsToSql) (Object_keys dataToUpdate));
           values := Object_values dataToUpdate |}.
Proof. destruct dataToUpdate as [|[k v] rest]; [congruence | reflexivity]. Qed.

Lemma fragment_assignment jsToSql idx colName :
  fragment jsToSql idx colName
  = assignment (or_else (Get jsToSql colName) colName) (idx + 1).
Proof. reflexivity. Qed.

(** C2: the builder fails exactly when the update request has no key, and
    then with the [BadRequestError] for an empty update, returning nothing;
    every request with at least one key is accepted, whatever its values. *)
Theorem sqlForPartialUpdate_fails_iff_empty dataToUpdate jsToSql :
  (sqlForPartialUpdate dataToUpdate jsToSql = inl (BadRequestError "No data")
     ↔ length (Object_keys dataToUpdate) = 0)
  ∧ ((∃ r, sqlForPartialUpdate dataToUpdate jsToSql = inr r)
     ↔ length (Object_keys dataToUpdate) ≠ 0)
  ∧ (∀ e, sqlForPartialUpdate dataToUpdate jsToSql = inl e
          ↔ e = BadRequestError "No data" ∧ dataToUpdate = []).
Proof.
  destruct dataToUpdate as [|[k v] rest].
  - rewrite sqlForPartialUpdate_empty. cbn. repeat split; try done.
    + by intros [r ?].
    + congruence.
    + intros [-> _]. done.
  - rewrite sqlForPartialUpdate_nonempty by done. cbn. repeat split; try done.
    + eauto.
    + by intros [_ ?].
Qed.

(** Values that are falsy in JavaScript are ordinary update values. *)
Example sqlForPartialUpdate_accepts_falsy_values :
  sqlForPartialUpdate [("a", VNull); ("b", VNum 0); ("c", VStr "")] ∅
  = inr {| setCols := join ", " [assignment "a" 1; assignment "b" 2; assignment "c" 3];
           values := [VNull; VNum 0; VStr ""] |}.
Proof. vm_compute. reflexivity. Qed.

Lemma Object_prototype_truthy k text :
  Object_prototype k = Some text → truthy (VStr text) = true.
Proof.
  unfold Object_prototype, native_function.
  repeat case_decide; intros [= <-]; reflexivity.
Qed.

(** C3, as stated, fails: an own entry of the translation table that is the
    empty string is falsy, so [||] falls back to the key; and a key with no
    own entry that names a member of [Object.prototype] resolves to that
    inherited member instead of to the key itself. *)
Lemma fragment_translation_counterexample :
  ¬ (∀ jsToSql idx colName,
       (∀ v, jsToSql !! colName = Some v →
             fragment jsToSql idx colName = assignment v (idx + 1))
       ∧ (jsToSql !! colName = None →
             fragment jsToSql idx colName = assignment colName (idx + 1)))
  ∧ ({[ "a" := "" ]} : gmap string string) !! "a" = Some ""
  ∧ fragment {[ "a" := "" ]} 0 "a" = assignment "a" 1
  ∧ fragment {[ "a" := "" ]} 0 "a" ≠ assignment "" 1
  ∧ (∅ : gmap string string) !! "constructor" = None
  ∧ fragment ∅ 0 "constructor" = assignment "function Object() { [native code] }" 1
  ∧ fragment ∅ 0 "constructor" ≠ assignment "constructor" 1.
Proof.
  split.
  - intros Hall.
    destruct (Hall {[ "a" := "" ]} 0 "a") as [Hpresent _].
    specialize (Hpresent "" eq_refl). vm_compute in Hpresent. discriminate.
  - repeat split; try (vm_compute; congruence).
Qed.

(** X19: what the lookup through the prototype chain does to a key that
    the table does not hold but [Object.prototype] defines: the fragment
    carries the text of the inherited member as its column, not the key. *)
Lemma fragment_inherited jsToSql idx colName text :
  jsToSql !! colName = None → Object_prototype colName = Some text →
  fragment jsToSql idx colName = assignment text (idx + 1).
Proof.
  intros Hown Hp. rewrite fragment_assignment. unfold Get. rewrite Hown, Hp.
  cbn [or_else]. by rewrite (Object_prototype_truthy _ _ Hp).
Qed.

(** C3, amended: an own entry of the table that is a non-empty string is
    the emitted column; an own entry that is the empty string, or no entry
    at all for a key that [Object.prototype] does not define, emits the key
    itself.  This holds at every position and for every table. *)
Theorem fragment_translation jsToSql idx colName :
  (∀ v, jsToSql !! colName = Some v → v ≠ "" →
        fragment jsToSql idx colName = assignment v (idx + 1))
  ∧ (jsToSql !! colName = Some "" →
        fragment jsToSql idx colName = assignment colName (idx + 1))
  ∧ (jsToSql !! colName = None → Object_prototype colName = None →
        fragment jsToSql idx colName = assignment colName (idx + 1)).
Proof.
  rewrite fragment_assignment. unfold Get.
  repeat split.
  - intros v -> Hv. cbn. destruct v; [done | reflexivity].
  - intros ->. reflexivity.
  - intros -> ->. reflexivity.
Qed.

Lemma fragment_translation_witness :
  fragment {[ "numEmployees" := "num_employees" ]} 0 "numEmployees"
    = assignment "num_employees" 1
  ∧ fragment {[ "name" := "" ]} 1 "name" = assignment "name" 2
  ∧ fragment {[ "numEmployees" := "num_employees" ]} 1 "name" = assignment "name" 2.
Proof.
  split; [|split].
  - destruct (fragment_translation {[ "numEmployees" := "num_employees" ]} 0 "numEmployees")
      as (Hown & _). apply Hown; [reflexivity | discriminate].
  - destruct (fragment_translation {[ "name" := "" ]} 1 "name")
      as (_ & Hfalsy & _). apply Hfalsy; reflexivity.
  - destruct (fragment_translation {[ "numEmployees" := "num_employees" ]} 1 "name")
      as (_ & _ & Habsent). apply Habsent; reflexivity.
Defined.



Lemma Number_toString_inj : Inj (=) (=) Number_toString.
Proof. unfold Number_toString. apply _. Qed.

(** The callback of the builder in the wire format of the library. *)
Lemma fragment_set_fragment jsToSql idx colName :
  fragment jsToSql idx colName = set_fragment (column_of jsToSql colName) (idx + 1).
Proof.
  unfold fragment, template, set_fragment, placeholder, column_of, Get.
  destruct (jsToSql !! colName) as [[|c column]|]; [reflexivity..|].
  destruct (Object_prototype colName) as [text|] eqn:Hp; [|reflexivity].
  cbn [or_else default]. by rewrite (Object_prototype_truthy _ _ Hp).
Qed.

Lemma imap_set_fragment_from jsToSql n keys :
  imap (λ idx colName, fragment jsToSql (n + idx) colName) keys
  = zip_with (λ key p, quote_mark +:+ column_of jsToSql key +:+ quote_mark +:+ "=" +:+ p)
             keys (placeholder <$> seq (S n) (length keys)).
Proof.
  revert n. induction keys as [|k keys IH]; intros n; [reflexivity|].
  rewrite imap_cons. cbn [fmap list_fmap length seq zip_with].
  f_equal.
  - rewrite fragment_set_fragment. unfold set_fragment. do 5 f_equal. lia.
  - rewrite <- (IH (S n)). apply imap_ext. intros i x _. cbn. f_equal. lia.
Qed.

(** C1: for a non-empty update request with N keys the builder succeeds.
    Its clause is N fragments joined by a comma and a space, and it
    returns N values, which are the values of the request in the order of
    its keys, unchanged.  The i-th fragment (counted from 1) is the
    assignment fragment of the i-th key: the column of that key between
    double quotes, an equals sign, and the placeholder [$i], which is the
    position of the value of that key among the values returned. *)
Theorem sqlForPartialUpdate_aligned dataToUpdate jsToSql :
  dataToUpdate ≠ [] →
  ∃ r fragments,
    sqlForPartialUpdate dataToUpdate jsToSql = inr r
    ∧ setCols r = String.concat ", " fragments
    ∧ length fragments = length dataToUpdate
    ∧ length (values r) = length dataToUpdate
    ∧ values r = dataToUpdate.*2
    ∧ ∀ i k v, dataToUpdate !! i = Some (k, v) →
        fragments !! i
        = Some (String (ascii_of_nat 34) EmptyString +:+ column_of jsToSql k
                  +:+ String (ascii_of_nat 34) EmptyString +:+ "=$" +:+ pretty (i + 1))
        ∧ values r !! i = Some v.
Proof.
  intros Hne. eexists.
  exists (imap (fragment jsToSql) (Object_keys dataToUpdate)).
  split; [by apply sqlForPartialUpdate_nonempty|]. cbn [setCols values].
  split; [done|].
  split; [by rewrite length_imap, Object_keys_length|].
  split; [apply Object_values_length|].
  split; [done|].
  intros i k v Hi. unfold Object_keys, Object_values.
  rewrite list_lookup_imap, !list_lookup_fmap, Hi. cbn [fmap option_fmap option_map fst snd].
  by rewrite fragment_set_fragment.
Qed.

Lemma sqlForPartialUpdate_aligned_witness :
  ∃ r fragments,
    sqlForPartialUpdate [("age", VNum 32); ("nick", VNull)] ∅ = inr r
    ∧ setCols r = String.concat ", " fragments
    ∧ length fragments = 2
    ∧ length (values r) = 2
    ∧ values r = [VNum 32; VNull]
    ∧ ∀ i k v, [("age", VNum 32); ("nick", VNull)] !! i = Some (k, v) →
        fragments !! i
        = Some (String (ascii_of_nat 34) EmptyString +:+ column_of ∅ k
                  +:+ String (ascii_of_nat 34) EmptyString +:+ "=$" +:+ pretty (i + 1))
        ∧ values r !! i = Some v.
Proof.
  exact (sqlForPartialUpdate_aligned [("age", VNum 32); ("nick", VNull)] ∅
           ltac:(discriminate)).
Defined.

(** C4: for a non-empty update request with N keys, the clause is exactly
    N fragments joined by a comma and a space, one per key in the order
    of the keys; each is the column of its key between double quotes, an
    equals sign, and a placeholder.  The placeholders are, in that order,
    [$1], [$2], ..., [$N]: the i-th one (counted from 0) prints [i + 1]
    after the dollar sign, and no two of them are equal. *)
Theorem sqlForPartialUpdate_placeholders dataToUpdate jsToSql :
  dataToUpdate ≠ [] →
  let keys := dataToUpdate.*1 in
  let N := length keys in
  let placeholders := (λ index, "$" +:+ pretty index) <$> seq 1 N in
  ∃ r,
    sqlForPartialUpdate dataToUpdate jsToSql = inr r
    ∧ setCols r
      = String.concat ", "
          (zip_with (λ key p, String (ascii_of_nat 34) EmptyString
                                +:+ column_of jsToSql key
                                +:+ String (ascii_of_nat 34) EmptyString +:+ "=" +:+ p)
                    keys placeholders)
    ∧ length placeholders = N
    ∧ NoDup placeholders
    ∧ ∀ i, i < N → placeholders !! i = Some ("$" +:+ pretty (i + 1)).
Proof.
  intros Hne keys N placeholders. eexists.
  split; [by apply sqlForPartialUpdate_nonempty|]. cbn [setCols].
  split; [|split; [|split]].
  - unfold join. f_equal.
    apply (imap_set_fragment_from jsToSql 0 (Object_keys dataToUpdate)).
  - unfold placeholders. by rewrite length_fmap, length_seq.
  - apply NoDup_fmap_2; [|apply NoDup_seq].
    intros i j [= Hij]. by apply (inj pretty).
  - intros i Hi. unfold placeholders.
    rewrite list_lookup_fmap, lookup_seq_lt by done. cbn. do 3 f_equal. lia.
Qed.

Lemma sqlForPartialUpdate_placeholders_witness :
  let dataToUpdate := [("title", VStr "dev"); ("salary", VNum 10); ("equity", VNull)] in
  let placeholders := ["$1"; "$2"; "$3"] in
  ∃ r,
    sqlForPartialUpdate dataToUpdate ∅ = inr r
    ∧ setCols r
      = String.concat ", "
          (zip_with (λ key p, String (ascii_of_nat 34) EmptyString
                                +:+ column_of ∅ key
                                +:+ String (ascii_of_nat 34) EmptyString +:+ "=" +:+ p)
                    ["title"; "salary"; "equity"] placeholders)
    ∧ length placeholders = 3
    ∧ NoDup placeholders
    ∧ ∀ i, i < 3 → placeholders !! i = Some ("$" +:+ pretty (i + 1)).
Proof.
  exact (sqlForPartialUpdate_placeholders
           [("title", VStr "dev"); ("salary", VNum 10); ("equity", VNull)] ∅
           ltac:(discriminate)).
Defined.


(** The other example of the specification: identity fallback. *)
Example sqlForPartialUpdate_age :
  sqlForPartialUpdate [("age", VNum 32)] ∅
  = inr {| setCols := dquote +:+ "age" +:+ dquote +:+ "=$1"; values := [VNum 32] |}.
Proof. vm_compute. reflexivity. Qed.

End sql_facts.

(** ** helpers/sql.js over the store *)

Section heap_facts.
Import JS Sql Heap.
Implicit Types (h : gmap loc cell) (l : loc).

Lemma bind_returns {A B} (m : H A) (k : A → H B) h x h' :
  m h = (inr x, h') → (m ≫= k) h = k x h'.
Proof. intros Hm. unfold mbind, H_bind. by rewrite Hm. Qed.

Lemma alloc_fresh c h :
  ∃ l, alloc c h = (inr l, <[l:=c]> h) ∧ h !! l = None.
Proof.
  exists (fresh (dom h)). split; [reflexivity|].
  apply not_elem_of_dom, is_fresh.
Qed.

Lemma load_object_run h l props :
  h !! l = Some (CObject props) → load_object l h = (inr props, h).
Proof. intros Hl. unfold load_object. by rewrite Hl. Qed.

Lemma load_strings_run h l elems :
  h !! l = Some (CStrings elems) → load_strings l h = (inr elems, h).
Proof. intros Hl. unfold load_strings. by rewrite Hl. Qed.

Lemma Get_run h l entries colName :
  h !! l = Some (CTable entries) →
  Heap.Get l colName h = (inr (Sql.Get entries colName), h).
Proof. intros Hl. unfold Heap.Get. by rewrite Hl. Qed.

(** A cell that exists before an allocation is still there, unchanged. *)
Lemma lookup_after_alloc h l l' c c' :
  h !! l = Some c → h !! l' = None → <[l':=c']> h !! l = Some c.
Proof. intros Hl Hl'. rewrite lookup_insert_ne; [done | congruence]. Qed.

(** The callbacks only read the translation table. *)
Lemma map_from_run h jsToSql entries n keys :
  h !! jsToSql = Some (CTable entries) →
  map_from (λ colName idx, v ← Heap.Get jsToSql colName ; mret (template v colName idx))
           n keys h
  = (inr (imap (λ idx colName, fragment entries (n + idx) colName) keys), h).
Proof.
  intros Ht. revert n. induction keys as [|k keys IH]; intros n; [reflexivity|].
  cbn [map_from].
  erewrite bind_returns; [|erewrite bind_returns; [reflexivity | by apply Get_run]].
  erewrite bind_returns; [|apply IH].
  rewrite imap_cons. unfold mret, H_ret. do 2 f_equal.
  f_equal.
  - unfold fragment. f_equal. lia.
  - apply imap_ext. intros i x _. cbn. f_equal. lia.
Qed.

(** Running the store version on well-formed arguments: it only adds
    cells to the store, and what the caller observes is the result of
    [Sql.sqlForPartialUpdate] on the contents of the two arguments. *)
Lemma sqlForPartialUpdate_run h dataToUpdate jsToSql props entries :
  h !! dataToUpdate = Some (CObject props) →
  h !! jsToSql = Some (CTable entries) →
  ∃ r h', Heap.sqlForPartialUpdate dataToUpdate jsToSql h = (r, h')
          ∧ h ⊆ h'
          ∧ observe r h' = Some (Sql.sqlForPartialUpdate props entries).
Proof.
  intros Hd Ht. unfold Heap.sqlForPartialUpdate.
  destruct (alloc_fresh (CStrings (JS.Object_keys props)) h) as (keys & Ekeys & Fkeys).
  set (h1 := <[keys:=CStrings (JS.Object_keys props)]> h) in *.
  assert (h ⊆ h1) as Hh1 by by apply insert_subseteq.
  assert (h1 !! keys = Some (CStrings (JS.Object_keys props))) as Hkeys
    by apply lookup_insert_eq.
  erewrite bind_returns; cycle 1.
  { unfold Heap.Object_keys. erewrite bind_returns; [apply Ekeys | by apply load_object_run]. }
  erewrite bind_returns; cycle 1.
  { unfold Array_length. erewrite bind_returns; [reflexivity | by apply load_strings_run]. }
  destruct props as [|[k v] rest].
  { eexists _, _. split; [reflexivity|]. split; [done|]. reflexivity. }
  cbn [JS.Object_keys fmap list_fmap length Nat.eqb] in *.
  set (props := (k, v) :: rest) in *.
  assert (h1 !! jsToSql = Some (CTable entries)) as Ht1
    by (by eapply lookup_after_alloc).
  assert (h1 !! dataToUpdate = Some (CObject props)) as Hd1
    by (by eapply lookup_after_alloc).
  set (cols := imap (fragment entries) (JS.Object_keys props)).
  destruct (alloc_fresh (CStrings cols) h1) as (lcols & Ecols & Fcols).
  set (h2 := <[lcols:=CStrings cols]> h1) in *.
  erewrite bind_returns; cycle 1.
  { unfold Array_map. erewrite bind_returns; [|by apply load_strings_run].
    erewrite bind_returns; [|by apply (map_from_run _ _ entries 0)].
    exact Ecols. }
  erewrite bind_returns; cycle 1.
  { unfold Array_join. erewrite bind_returns; [reflexivity|].
    apply load_strings_run, lookup_insert_eq. }
  destruct (alloc_fresh (CValues (JS.Object_values props)) h2) as (lvals & Evals & Fvals).
  set (h3 := <[lvals:=CValues (JS.Object_values props)]> h2) in *.
  erewrite bind_returns; cycle 1.
  { unfold Heap.Object_values. erewrite bind_returns; [apply Evals|].
    apply load_object_run. by eapply lookup_after_alloc. }
  destruct (alloc_fresh (CResult (join ", " cols) lvals) h3) as (lres & Eres & Fres).
  exists (inr lres), (<[lres:=CResult (join ", " cols) lvals]> h3).
  split; [exact Eres|]. split.
  - etrans; [exact Hh1|]. etrans; [by apply insert_subseteq|].
    etrans; by apply insert_subseteq.
  - unfold observe. rewrite lookup_insert_eq.
    rewrite (lookup_after_alloc h3 lvals lres (CValues (JS.Object_values props)));
      [|apply lookup_insert_eq | done].
    reflexivity.
Qed.

(** C6: two calls on arguments with the same contents, in whatever state
    the store is, end the same way: both throw the same error or both
    return an object with the same clause and the same values, namely what
    [Sql.sqlForPartialUpdate] computes from the contents of the arguments;
    and neither call changes any object that was in the store before it,
    its own arguments included. *)
Theorem sqlForPartialUpdate_pure h1 h2 data1 table1 data2 table2 props entries :
  h1 !! data1 = Some (CObject props) → h1 !! table1 = Some (CTable entries) →
  h2 !! data2 = Some (CObject props) → h2 !! table2 = Some (CTable entries) →
  ∃ r1 h1' r2 h2',
    Heap.sqlForPartialUpdate data1 table1 h1 = (r1, h1')
    ∧ Heap.sqlForPartialUpdate data2 table2 h2 = (r2, h2')
    ∧ observe r1 h1' = Some (Sql.sqlForPartialUpdate props entries)
    ∧ observe r2 h2' = observe r1 h1'
    ∧ (∀ l c, h1 !! l = Some c → h1' !! l = Some c)
    ∧ (∀ l c, h2 !! l = Some c → h2' !! l = Some c).
Proof.
  intros Hd1 Ht1 Hd2 Ht2.
  destruct (sqlForPartialUpdate_run h1 data1 table1 props entries Hd1 Ht1)
    as (r1 & h1' & E1 & S1 & O1).
  destruct (sqlForPartialUpdate_run h2 data2 table2 props entries Hd2 Ht2)
    as (r2 & h2' & E2 & S2 & O2).
  exists r1, h1', r2, h2'. repeat split; try done.
  - congruence.
  - intros l c Hl. by eapply lookup_weaken.
  - intros l c Hl. by eapply lookup_weaken.
Qed.

(** The builder called twice in a row on the request and the table of the
    test suite, which sit at addresses 1 and 2 of the store. *)
Lemma sqlForPartialUpdate_pure_witness :
  let props := [("firstName", VStr "Miss"); ("lastName", VStr "Kitty")] in
  let entries : gmap string string :=
    {[ "firstName" := "first_name"; "lastName" := "last_name" ]} in
  let h1 := Heap.example_heap in
  let h2 := (Heap.sqlForPartialUpdate 1%positive 2%positive h1).2 in
  ∃ r1 h1' r2 h2',
    Heap.sqlForPartialUpdate 1%positive 2%positive h1 = (r1, h1')
    ∧ Heap.sqlForPartialUpdate 1%positive 2%positive h2 = (r2, h2')
    ∧ observe r1 h1' = Some (Sql.sqlForPartialUpdate props entries)
    ∧ observe r2 h2' = observe r1 h1'
    ∧ (∀ l c, h1 !! l = Some c → h1' !! l = Some c)
    ∧ (∀ l c, h2 !! l = Some c → h2' !! l = Some c).
Proof.
  intros props entries h1 h2.
  apply (sqlForPartialUpdate_pure h1 h2 1%positive 2%positive 1%positive 2%positive
           props entries); vm_compute; reflexivity.
Defined.

End heap_facts.

(** ** models/job.js *)

Section job_facts.
Import JS Sql Db.
Context {engine : Engine} {database : Database}.
Implicit Types (w : world) (id arg : value).

Lemma bind_lift_inr {A B} (x : A) (k : A → M B) w :
  (lift (inr x) ≫= k) w = k x w.
Proof. reflexivity. Qed.

(** C7: the first statement [Job.get] sends is the lookup by id, with the
    given id as its only parameter, and the text of that statement ends in
    [WHERE if = $1]: it filters on a column named [if], and the condition
    [id = $1] occurs nowhere in it. *)
Theorem get_filters_on_if id w :
  let sql :=
    "SELECT id, title, salary, equity, company_handle AS " +:+ dquote
      +:+ "companyHandle" +:+ dquote +:+ nl
      +:+ "      FROM jobs" +:+ nl
      +:+ "      WHERE if = $1" in
  Job.get_sql = sql
  ∧ String.index 0 "WHERE if = $1" sql = Some (String.length sql - 13)
  ∧ String.index 0 "id = $1" sql = None
  ∧ ∃ rest, sent w (Job.get id w).2 = {| text := sql; params := [id] |} :: rest.
Proof.
  intros sql. split; [reflexivity|]. split; [vm_compute; reflexivity|].
  split; [vm_compute; reflexivity|].
  unfold Job.get, sent, mbind, M_bind, query.
  change Job.get_sql with sql.
  destruct (execute {| text := sql; params := [id] |} (store w)) as [[e|rows] s]; cbn.
  - exists []. by rewrite drop_app_length.
  - destruct (head rows) as [job|]; cbn.
    + destruct (execute _ s) as [[e|rows'] s']; cbn;
        eexists; rewrite <- app_assoc; by rewrite drop_app_length.
    + exists []. by rewrite drop_app_length.
Qed.

(** The object returned by the builder has the properties [setCols] and
    [values] and no other: reading [vals] off it gives [undefined]. *)
Lemma as_object_keys (r : PartialUpdate) :
  Object_keys (as_object r) = ["setCols"; "values"]
  ∧ prop (as_object r) "vals" = VUndefined
  ∧ prop (as_object r) "values" = VArr (values r).
Proof. done. Qed.

(** C8: for every id and every non-empty data object, the builder
    succeeds and the object it returns has the properties [setCols] and
    [values] only, so the [vals] that [Job.update] destructures from it is
    [undefined]; [Job.update] then throws a [TypeError], sends no
    statement and leaves the database as it was. *)
Theorem update_throws_TypeError id (data : object) w :
  data ≠ [] →
  (∃ r, sqlForPartialUpdate data ∅ = inr r
        ∧ Object_keys (as_object r) = ["setCols"; "values"]
        ∧ prop (as_object r) "vals" = VUndefined)
  ∧ (∃ message, Job.update id data w = (inl (TypeError message), w))
  ∧ sent w (Job.update id data w).2 = []
  ∧ store (Job.update id data w).2 = store w.
Proof.
  intros Hne.
  assert (Job.update id data w
          = (inl (TypeError "Cannot read properties of undefined (reading 'length')"), w))
    as Hrun.
  { unfold Job.update. rewrite (sqlForPartialUpdate_nonempty data ∅ Hne).
    rewrite bind_lift_inr. reflexivity. }
  split; [|split; [by eexists|]].
  - eexists. split; [by apply sqlForPartialUpdate_nonempty|]. done.
  - rewrite Hrun. cbn. unfold sent. by rewrite drop_all.
Qed.

(** With no data the builder itself refuses, before [vals] is read. *)
Example update_empty id w :
  Job.update id [] w = (inl (BadRequestError "No data"), w).
Proof. reflexivity. Qed.

Lemma findAll_object (filters : object) w :
  Job.findAll (VObj filters) w
  = (inl (TypeError "Assignment to constant variable."), w).
Proof.
  unfold Job.findAll. cbn [Job.destructure]. rewrite bind_lift_inr.
  destruct (Job.is_undefined (prop filters "minSalary")),
           (Job.is_true (prop filters "hasEquity")),
           (Job.is_undefined (prop filters "title")); reflexivity.
Qed.

(** C9: whatever its argument, [Job.findAll] throws a [TypeError] without
    sending any statement, so it never returns rows: a [null] argument
    cannot be destructured, and in every other case the first [+=] on the
    [const] binding [query] that is reached is refused. *)
Theorem findAll_always_throws arg w :
  ∃ message,
    Job.findAll arg w = (inl (TypeError message), w)
    ∧ (arg ≠ VNull → message = "Assignment to constant variable.")
    ∧ sent w (Job.findAll arg w).2 = []
    ∧ ∀ rows w', Job.findAll arg w ≠ (inr rows, w').
Proof.
  assert (arg = VNull ∨ ∃ filters : object, Job.findAll arg w = Job.findAll (VObj filters) w)
    as [-> | [filters ->]].
  { destruct arg; [right; by exists [] | by left | right; by exists [] ..
                  | right; by eexists ]. }
  - eexists. split; [reflexivity|]. split; [done|]. split; [|done].
    cbn. unfold sent. by rewrite drop_all.
  - rewrite findAll_object. eexists. split; [reflexivity|]. split; [done|].
    split; [|done]. cbn. unfold sent. by rewrite drop_all.
Qed.

End job_facts.

(** ** models/company.js *)

Section company_facts.
Import JS Sql Db.
Context {engine : Engine} {database : Database}.
Implicit Types (w : world) (minEmployees maxEmployees nameLike : value).

(** The statements a call sends never mention a bound that is falsy. *)
Lemma findByFilters_sent minEmployees maxEmployees nameLike w :
  Forall (λ q,
            (truthy minEmployees = false →
               String.index 0 "num_employees >=" (text q) = None)
            ∧ (truthy maxEmployees = false →
               String.index 0 "num_employees <=" (text q) = None))
         (sent w (Company.findByFilters minEmployees maxEmployees nameLike w).2).
Proof.
  unfold Company.findByFilters, sent.
  destruct (truthy minEmployees), (truthy maxEmployees); cbn [andb].
  1: destruct (Company.gt _ _); [cbn; rewrite drop_all; constructor|].
  all: destruct (truthy nameLike); [destruct nameLike|].
  all: cbn; unfold mbind, M_bind, lift, query; cbn.
  all: rewrite ?drop_all; try by constructor.
  all: destruct (execute _ _) as [[?|?] ?]; cbn.
  all: rewrite drop_app_length.
  all: constructor; [|constructor].
  all: cbn [text]; split; intros; try discriminate.
  all: vm_compute; reflexivity.
Qed.

(** Without the validation error, a call either stumbles on [nameLike] or
    reaches the database. *)
Lemma findByFilters_no_validation minEmployees maxEmployees nameLike w :
  truthy minEmployees = false ∨ truthy maxEmployees = false →
  ∀ message,
    (Company.findByFilters minEmployees maxEmployees nameLike w).1
    ≠ inl (BadRequestError message).
Proof.
  intros Hfalsy message. unfold Company.findByFilters.
  replace (truthy minEmployees && truthy maxEmployees) with false
    by (destruct Hfalsy as [-> | ->]; [done | by rewrite andb_false_r]).
  cbn [andb].
  destruct (truthy minEmployees), (truthy maxEmployees).
  all: destruct (truthy nameLike); [destruct nameLike|].
  all: cbn; unfold mbind, M_bind, lift, query; cbn; try done.
  all: destruct (execute _ _) as [[?|?] ?]; cbn; done.
Qed.

(** C10: a falsy bound counts as absent.  When [minEmployees] is falsy
    the call behaves exactly as if that argument were [undefined], and no
    statement it sends holds a [num_employees >=] condition; likewise for
    [maxEmployees] and [num_employees <=]; and when either bound is falsy
    the call never throws the [BadRequestError] of the validation. *)
Theorem findByFilters_falsy_bound_is_absent minEmployees maxEmployees nameLike w :
  (truthy minEmployees = false →
     Company.findByFilters minEmployees maxEmployees nameLike w
     = Company.findByFilters VUndefined maxEmployees nameLike w
     ∧ Forall (λ q, String.index 0 "num_employees >=" (text q) = None)
         (sent w (Company.findByFilters minEmployees maxEmployees nameLike w).2))
  ∧ (truthy maxEmployees = false →
     Company.findByFilters minEmployees maxEmployees nameLike w
     = Company.findByFilters minEmployees VUndefined nameLike w
     ∧ Forall (λ q, String.index 0 "num_employees <=" (text q) = None)
         (sent w (Company.findByFilters minEmployees maxEmployees nameLike w).2))
  ∧ (truthy minEmployees = false ∨ truthy maxEmployees = false →
     ∀ message,
       (Company.findByFilters minEmployees maxEmployees nameLike w).1
       ≠ inl (BadRequestError message)).
Proof.
  split; [|split].
  - intros Hmin. split.
    + unfold Company.findByFilters. rewrite Hmin. reflexivity.
    + eapply Forall_impl; [apply findByFilters_sent|]. intros q [Hq _]. by apply Hq.
  - intros Hmax. split.
    + unfold Company.findByFilters. cbn [truthy]. rewrite Hmax, !andb_false_r.
      reflexivity.
    + eapply Forall_impl; [apply findByFilters_sent|]. intros q [_ Hq]. by apply Hq.
  - apply findByFilters_no_validation.
Qed.

End company_facts.

Section job_witnesses.
Import JS Sql Db.

Lemma update_throws_TypeError_witness :
  let update := @Job.update Fixtures.small_engine Fixtures.fixed_table in
  let w := Fixtures.empty_world in
  let data := [("title", VStr "dev")] in
  (∃ r, sqlForPartialUpdate data ∅ = inr r
        ∧ Object_keys (as_object r) = ["setCols"; "values"]
        ∧ prop (as_object r) "vals" = VUndefined)
  ∧ (∃ message, update (VNum 1) data w = (inl (TypeError message), w))
  ∧ sent w (update (VNum 1) data w).2 = []
  ∧ store (update (VNum 1) data w).2 = store w.
Proof.
  intros update w data.
  apply (@update_throws_TypeError Fixtures.small_engine Fixtures.fixed_table
           (VNum 1) data w).
  discriminate.
Defined.

(** [Job.get] on a database without rows: one statement sent, then the
    [NotFoundError]. *)
Example get_not_found :
  @Job.get Fixtures.small_engine Fixtures.fixed_table (VNum 7) Fixtures.empty_world
  = (inl (NotFoundError "Could not find job 7"),
     {| store := Fixtures.no_rows;
        issued := [ {| text := Job.get_sql; params := [VNum 7] |} ] |}).
Proof. vm_compute. reflexivity. Qed.

End job_witnesses.

Section company_witnesses.
Import JS Sql Db.

Lemma findByFilters_falsy_bound_is_absent_witness :
  let findByFilters := @Company.findByFilters Fixtures.small_engine Fixtures.fixed_table in
  let w := Fixtures.empty_world in
  (findByFilters (VNum 0) (VNum 5) (VStr "Net") w
   = findByFilters VUndefined (VNum 5) (VStr "Net") w
   ∧ Forall (λ q, String.index 0 "num_employees >=" (text q) = None)
       (sent w (findByFilters (VNum 0) (VNum 5) (VStr "Net") w).2))
  ∧ (findByFilters (VNum 10) (VNum 0) VUndefined w
     = findByFilters (VNum 10) VUndefined VUndefined w
     ∧ Forall (λ q, String.index 0 "num_employees <=" (text q) = None)
         (sent w (findByFilters (VNum 10) (VNum 0) VUndefined w).2))
  ∧ (∀ message,
       (findByFilters (VNum 10) (VNum 0) VUndefined w).1
       ≠ inl (BadRequestError message)).
Proof.
  intros findByFilters w.
  destruct (@findByFilters_falsy_bound_is_absent Fixtures.small_engine
              Fixtures.fixed_table (VNum 0) (VNum 5) (VStr "Net") w) as (Hmin & _ & _).
  destruct (@findByFilters_falsy_bound_is_absent Fixtures.small_engine
              Fixtures.fixed_table (VNum 10) (VNum 0) VUndefined w) as (_ & Hmax & Hskip).
  split; [apply Hmin; reflexivity|].
  split; [apply Hmax; reflexivity|].
  apply Hskip. right. reflexivity.
Defined.

(** A lower bound of zero is dropped from the statement. *)
Example findByFilters_zero_min :
  @Company.findByFilters Fixtures.small_engine Fixtures.fixed_table
    (VNum 0) (VNum 5) VUndefined Fixtures.empty_world
  = (inr [],
     {| store := Fixtures.no_rows;
        issued := [ {| text := "SELECT * FROM companies WHERE 1 = 1 AND num_employees <= $1";
                       params := [VNum 5] |} ] |}).
Proof. vm_compute. reflexivity. Qed.

(** With two truthy bounds the validation does fire. *)
Example findByFilters_min_above_max :
  @Company.findByFilters Fixtures.small_engine Fixtures.fixed_table
    (VNum 10) (VNum 5) VUndefined Fixtures.empty_world
  = (inl (BadRequestError "min employees cannot be greater than max employees"),
     Fixtures.empty_world).
Proof. vm_compute. reflexivity. Qed.

(** With an upper bound of zero it does not, although 10 exceeds 0. *)
Example findByFilters_zero_max :
  @Company.findByFilters Fixtures.small_engine Fixtures.fixed_table
    (VNum 10) (VNum 0) VUndefined Fixtures.empty_world
  = (inr [],
     {| store := Fixtures.no_rows;
        issued := [ {| text := "SELECT * FROM companies WHERE 1 = 1 AND num_employees >= $1";
                       params := [VNum 10] |} ] |}).
Proof. vm_compute. reflexivity. Qed.

End company_witnesses.

(** ** Running the models: shared facts *)

Section run_facts.
Import JS Sql Db.
Context {engine : Engine} {database : Database}.
Implicit Types (w : world) (s : state).

Lemma run_bind_returns {A B} (m : M A) (k : A → M B) w x w' :
  m w = (inr x, w') → (m ≫= k) w = k x w'.
Proof. intros Hm. unfold mbind, M_bind. by rewrite Hm. Qed.

Lemma query_run sql vals w :
  query sql vals w
  = (match (execute {| text := sql; params := vals |} (store w)).1 with
     | inl message => inl (DatabaseError message)
     | inr rows => inr rows
     end,
     after w (execute {| text := sql; params := vals |} (store w)).2
           [ {| text := sql; params := vals |} ]).
Proof. unfold query, after. by destruct (execute _ _) as [r s]. Qed.

Lemma query_returns sql vals w rows s :
  execute {| text := sql; params := vals |} (store w) = (inr rows, s) →
  query sql vals w = (inr rows, after w s [ {| text := sql; params := vals |} ]).
Proof. intros Hq. by rewrite query_run, Hq. Qed.

Lemma query_bind {A} sql vals (k : list Row → M A) w :
  (query sql vals ≫= k) w
  = match execute {| text := sql; params := vals |} (store w) with
    | (inl message, s) =>
        (inl (DatabaseError message), after w s [ {| text := sql; params := vals |} ])
    | (inr rows, s) => k rows (after w s [ {| text := sql; params := vals |} ])
    end.
Proof.
  unfold mbind, M_bind, query, after. by destruct (execute _ _) as [[message|rows] s].
Qed.

Lemma sent_after w s qs : sent w (after w s qs) = qs.
Proof. unfold sent, after. cbn. by rewrite drop_app_length. Qed.

Lemma after_after w s qs s' qs' :
  after (after w s qs) s' qs' = after w s' (qs ++ qs').
Proof. unfold after. cbn. by rewrite app_assoc. Qed.

Lemma prop_set_prop (o : object) k v : prop (set_prop o k v) k = v.
Proof.
  unfold prop. induction o as [|[k' v'] o IH]; cbn.
  - by rewrite decide_True.
  - destruct (decide (k' = k)) as [->|Hne]; cbn.
    + by rewrite decide_True.
    + by rewrite decide_False.
Qed.

Lemma prop_set_prop_ne (o : object) k k' v :
  k' ≠ k → prop (set_prop o k v) k' = prop o k'.
Proof.
  intros Hne. unfold prop. induction o as [|[k0 v0] o IH]; cbn.
  - by rewrite decide_False.
  - destruct (decide (k0 = k)) as [->|Hk0]; cbn.
    + by rewrite !decide_False.
    + destruct (decide (k0 = k')); [done | apply IH].
Qed.

End run_facts.

(** ** models/job.js: the remaining behaviour *)

Section job_more.
Import JS Sql Db.
Context {engine : Engine} {database : Database}.
Implicit Types (w : world) (s : state) (id : value).

(** X1: [Job.get] throws [NotFoundError] exactly when its first statement
    returns no row; it then reports the id in the message, and the lookup
    of the company is never sent. *)
Theorem get_not_found_iff id w :
  let q := {| text := Job.get_sql; params := [id] |} in
  let answer := execute q (store w) in
  ((∃ message, (Job.get id w).1 = inl (NotFoundError message)) ↔ answer.1 = inr [])
  ∧ (answer.1 = inr [] →
     Job.get id w
     = (inl (NotFoundError ("Could not find job " +:+ ToString id)),
        after w answer.2 [q])).
Proof.
  intros q answer. subst answer q. unfold Job.get. rewrite query_bind.
  destruct (execute _ (store w)) as [[message|[|job rest]] s]; cbn.
  - split; [|done]. split; [by intros [? ?] | done].
  - split; [|done]. split; [done | by eexists].
  - split; [|done]. split; [|done]. intros [m Hm]. revert Hm.
    rewrite query_bind. by destruct (execute _ _) as [[?|?] ?].
Qed.

(** X2: when the first statement returns rows and the lookup of the
    company succeeds, [Job.get] sends exactly those two statements, the
    second bound to the [companyHandle] of the first row; it returns that
    row with [company] set to the first company row (or [undefined]) and
    every other property as the database gave it. *)
Theorem get_attaches_company id w job rest s1 companies s2 :
  let q1 := {| text := Job.get_sql; params := [id] |} in
  let q2 := {| text := Job.get_company_sql; params := [prop job "companyHandle"] |} in
  execute q1 (store w) = (inr (job :: rest), s1) →
  execute q2 s1 = (inr companies, s2) →
  ∃ found,
    Job.get id w = (inr found, after w s2 [q1; q2])
    ∧ prop found "company" = Job.first_row companies
    ∧ ∀ k, k ≠ "company" → prop found k = prop job k.
Proof.
  intros q1 q2 H1 H2. exists (set_prop job "company" (Job.first_row companies)).
  split; [|split].
  - unfold Job.get. erewrite run_bind_returns; [|by apply query_returns].
    cbn [head]. erewrite run_bind_returns; [|apply query_returns; exact H2].
    by rewrite after_after.
  - apply prop_set_prop.
  - intros k Hk. by apply prop_set_prop_ne.
Qed.

(** X3: [Job.create] sends one INSERT whose fourth parameter is read from
    [companyHandle]; the [company_handle] property that its documentation
    names is never read, so its value changes nothing. *)
Theorem create_ignores_company_handle (data : object) v w :
  Job.create (set_prop data "company_handle" v) w = Job.create data w
  ∧ sent w (Job.create data w).2
    = [ {| text := Job.create_sql;
           params := [ prop data "title"; prop data "salary";
                       prop data "equity"; prop data "companyHandle" ] |} ].
Proof.
  split.
  - unfold Job.create. by rewrite !prop_set_prop_ne.
  - unfold Job.create. rewrite query_bind.
    destruct (execute _ _) as [[?|?] ?]; cbn; apply sent_after.
Qed.

(** X4: [Job.remove] always sends exactly one DELETE bound to the id, and
    throws [NotFoundError] exactly when that statement returns no row;
    when it returns one, the result is [undefined]. *)
Theorem remove_not_found_iff id w :
  let q := {| text := Job.remove_sql; params := [id] |} in
  let answer := execute q (store w) in
  sent w (Job.remove id w).2 = [q]
  ∧ ((Job.remove id w).1 = inl (NotFoundError ("Could not find " +:+ ToString id))
     ↔ answer.1 = inr [])
  ∧ ((Job.remove id w).1 = inr VUndefined ↔ ∃ row rows, answer.1 = inr (row :: rows)).
Proof.
  intros q answer. subst answer q. unfold Job.remove. rewrite query_bind.
  destruct (execute _ (store w)) as [[message|[|row rows]] s]; cbn.
  all: split; [apply sent_after|]; split; split; try done.
  all: try (by intros (? & ? & ?)). by eexists _, _.
Qed.

End job_more.

(** ** models/company.js: the remaining behaviour *)

Section company_more.
Import JS Sql Db Spec.
Context {engine : Engine} {database : Database}.
Implicit Types (w : world) (s : state) (handle : value) (data arg : object).

(** X5: [Company.create] first checks the handle.  When the check returns
    a row it throws the [BadRequestError] for a duplicate and stops there;
    the INSERT is among the statements sent exactly when the check
    succeeded and returned no row. *)
Theorem create_inserts_iff_no_duplicate arg w :
  let handle := prop arg "handle" in
  let check := {| text := Company.duplicateCheck_sql; params := [handle] |} in
  let answer := execute check (store w) in
  (∀ row rows, answer.1 = inr (row :: rows) →
     Company.create arg w
     = (inl (BadRequestError ("Duplicate company: " +:+ ToString handle)),
        after w answer.2 [check]))
  ∧ ((∃ q, q ∈ sent w (Company.create arg w).2 ∧ text q = Company.create_sql)
     ↔ answer.1 = inr []).
Proof.
  intros handle check answer. subst answer check handle.
  assert (Company.duplicateCheck_sql ≠ Company.create_sql) as Hsql
    by (vm_compute; discriminate).
  unfold Company.create. rewrite query_bind.
  destruct (execute _ (store w)) as [[message|[|row rows]] s]; cbn [head fst snd].
  - split; [done|]. rewrite sent_after. split; [|done].
    intros (q & ->%list_elem_of_singleton & Hq). done.
  - split; [done|]. split; [done|]. intros _.
    rewrite query_bind.
    exists {| text := Company.create_sql;
              params := [ prop arg "handle"; prop arg "name"; prop arg "description";
                          prop arg "numEmployees"; prop arg "logoUrl" ] |}.
    split; [|reflexivity].
    destruct (execute _ _) as [[?|?] ?]; unfold mret, M_ret; cbn [snd];
      rewrite ?after_after, sent_after;
      (apply elem_of_cons; right; apply elem_of_cons; by left).
  - split; [by intros ? ? [= <- <-]|]. unfold mthrow, M_throw. cbn [snd].
    rewrite sent_after. split; [|done].
    intros (q & ->%list_elem_of_singleton & Hq). done.
Qed.

(** X6: when the check returns no row, [Company.create] sends the check
    and then one INSERT on the data the check left, binding handle, name,
    description, numEmployees and logoUrl to [$1] ... [$5] in that order;
    it returns the first row of the INSERT. *)
Theorem create_sends_insert arg w s :
  let check := {| text := Company.duplicateCheck_sql; params := [prop arg "handle"] |} in
  let insert := {| text := Company.create_sql;
                   params := [ prop arg "handle"; prop arg "name";
                               prop arg "description"; prop arg "numEmployees";
                               prop arg "logoUrl" ] |} in
  execute check (store w) = (inr [], s) →
  Company.create arg w
  = (match (execute insert s).1 with
     | inl message => inl (DatabaseError message)
     | inr rows => inr (Job.first_row rows)
     end,
     after w (execute insert s).2 [check; insert]).
Proof.
  intros check insert Hcheck. unfold Company.create.
  rewrite query_bind. fold check. rewrite Hcheck. cbn [head].
  rewrite query_bind. fold insert.
  unfold after at 1 2. cbn [store].
  destruct (execute insert s) as [[?|?] ?]; unfold mret, M_ret; cbn [fst snd];
    unfold after; cbn; by rewrite <- app_assoc.
Qed.

(** X7: [Company.get] always sends exactly one SELECT bound to the handle;
    it throws [NotFoundError] exactly when that statement returns no row,
    and otherwise returns the first row. *)
Theorem company_get_not_found_iff handle w :
  let q := {| text := Company.get_sql; params := [handle] |} in
  let answer := execute q (store w) in
  sent w (Company.get handle w).2 = [q]
  ∧ ((Company.get handle w).1 = inl (NotFoundError ("No company: " +:+ ToString handle))
     ↔ answer.1 = inr [])
  ∧ (∀ company, (Company.get handle w).1 = inr company
                ↔ ∃ rows, answer.1 = inr (company :: rows)).
Proof.
  intros q answer. subst answer q. unfold Company.get. rewrite query_bind.
  destruct (execute _ (store w)) as [[message|[|row rows]] s]; cbn.
  all: split; [apply sent_after|]; split; [split; done|].
  all: intros company; split; try done; try (by intros [? ?]).
  - intros [= <-]. by eexists.
  - by intros [? [= -> _]].
Qed.

(** X8: [Company.remove] always sends exactly one DELETE bound to the
    handle, throws [NotFoundError] exactly when that statement returns no
    row, and returns [undefined] when it returns one. *)
Theorem company_remove_not_found_iff handle w :
  let q := {| text := Company.remove_sql; params := [handle] |} in
  let answer := execute q (store w) in
  sent w (Company.remove handle w).2 = [q]
  ∧ ((Company.remove handle w).1
       = inl (NotFoundError ("No company: " +:+ ToString handle))
     ↔ answer.1 = inr [])
  ∧ ((Company.remove handle w).1 = inr VUndefined
     ↔ ∃ row rows, answer.1 = inr (row :: rows)).
Proof.
  intros q answer. subst answer q. unfold Company.remove. rewrite query_bind.
  destruct (execute _ (store w)) as [[message|[|row rows]] s]; cbn.
  all: split; [apply sent_after|]; split; split; try done.
  all: try (by intros (? & ? & ?)). by eexists _, _.
Qed.

End company_more.

(** ** models/company.js: partial updates *)

Section company_update.
Import JS Sql Db Spec.
Context {engine : Engine} {database : Database}.
Implicit Types (w : world) (s : state) (handle : value) (data : object).

(** The statement [Company.update] builds for a clause and a handle index. *)
Lemma update_run handle data w :
  data ≠ [] →
  let text :=
    lines [ "UPDATE companies ";
            "                      SET "
              +:+ join ", " (imap (fragment Company.update_jsToSql) (Object_keys data))
              +:+ " ";
            "                      WHERE handle = $"
              +:+ Number_repr (number_of_nat (length data) + 1) +:+ " ";
            "                      RETURNING handle, ";
            "                                name, ";
            "                                description, ";
            "                                num_employees AS "
              +:+ dquote +:+ "numEmployees" +:+ dquote +:+ ", ";
            "                                logo_url AS "
              +:+ dquote +:+ "logoUrl" +:+ dquote ] in
  let q := {| text := text; params := Object_values data ++ [handle] |} in
  Company.update handle data w
  = match execute q (store w) with
    | (inl message, s) => (inl (DatabaseError message), after w s [q])
    | (inr [], s) =>
        (inl (NotFoundError ("No company: " +:+ ToString handle)), after w s [q])
    | (inr (company :: _), s) => (inr company, after w s [q])
    end.
Proof.
  intros Hne text q. unfold Company.update.
  rewrite (sqlForPartialUpdate_nonempty data _ Hne).
  erewrite run_bind_returns; [|reflexivity].
  erewrite run_bind_returns; [|reflexivity].
  erewrite run_bind_returns; [|reflexivity].
  rewrite query_bind. cbn [as_object prop own setCols values ToString add_one].
  rewrite Object_values_length.
  match goal with |- context [execute ?x (store w)] => change x with q end.
  by destruct (execute q (store w)) as [[?|[|? ?]] ?].
Qed.


(** X10: with an empty data object neither [Company.update] nor
    [Job.update] sends anything: both throw the [BadRequestError] of the
    builder and leave the database as it was. *)
Theorem update_refuses_empty handle w :
  Company.update handle [] w = (inl (BadRequestError "No data"), w)
  ∧ Job.update handle [] w = (inl (BadRequestError "No data"), w)
  ∧ sent w (Company.update handle [] w).2 = [].
Proof.
  split; [reflexivity|]. split; [reflexivity|].
  cbn. unfold sent. by rewrite drop_all.
Qed.

(** X11: the text of what [Company.update] sends is determined by the keys
    of the data object alone: the values and the handle travel only as
    parameters, whatever the state of the database. *)
Theorem update_text_from_keys handle1 handle2 data1 data2 w1 w2 :
  Object_keys data1 = Object_keys data2 →
  text <$> sent w1 (Company.update handle1 data1 w1).2
  = text <$> sent w2 (Company.update handle2 data2 w2).2.
Proof.
  intros Hkeys.
  assert (length data1 = length data2) as Hlen
    by (by rewrite <- !Object_keys_length, Hkeys).
  destruct data1 as [|p1 rest1], data2 as [|p2 rest2]; try discriminate Hlen.
  - cbn. unfold sent. by rewrite !drop_all.
  - rewrite !update_run by done. rewrite Hkeys, Hlen.
    destruct (execute _ (store w1)) as [[?|[|? ?]] ?],
             (execute _ (store w2)) as [[?|[|? ?]] ?];
      cbn [snd]; by rewrite !sent_after.
Qed.

(** X12: for a non-empty data object [Company.update] sends exactly one
    statement; it throws [NotFoundError] exactly when that statement
    returns no row, and returns the first row exactly when there is one. *)
Theorem update_not_found_iff handle data w :
  data ≠ [] →
  ∃ q,
    sent w (Company.update handle data w).2 = [q]
    ∧ params q = Object_values data ++ [handle]
    ∧ ((Company.update handle data w).1
         = inl (NotFoundError ("No company: " +:+ ToString handle))
       ↔ (execute q (store w)).1 = inr [])
    ∧ ∀ company, (Company.update handle data w).1 = inr company
                 ↔ ∃ rows, (execute q (store w)).1 = inr (company :: rows).
Proof.
  intros Hne. pose proof (update_run handle data w Hne) as Hrun. cbv zeta in Hrun.
  match type of Hrun with _ = match execute ?q _ with _ => _ end => exists q end.
  rewrite Hrun. split; [|split; [reflexivity|]].
  - by destruct (execute _ (store w)) as [[?|[|? ?]] ?]; cbn [snd]; rewrite sent_after.
  - destruct (execute _ (store w)) as [[?|[|? ?]] ?]; cbn [fst].
    all: split; [split; done|].
    all: intros company; split; try done; try (by intros [? ?]).
    + intros [= <-]. by eexists.
    + by intros [? [= -> _]].
Qed.



End company_update.

(** ** models/company.js: filters *)

Section company_filters.
Import JS Sql Db Spec.
Context {engine : Engine} {database : Database}.
Implicit Types (w : world) (minEmployees maxEmployees nameLike : value).

(** X14: [Company.findByFilters] refuses its arguments, with the
    [BadRequestError] about the bounds and without sending anything,
    exactly when both bounds are truthy and [parseInt] of the lower one
    is greater than [parseInt] of the upper one. *)
Theorem findByFilters_validation_iff minEmployees maxEmployees nameLike w :
  Company.findByFilters minEmployees maxEmployees nameLike w
  = (inl (BadRequestError "min employees cannot be greater than max employees"), w)
  ↔ truthy minEmployees = true ∧ truthy maxEmployees = true
    ∧ Company.gt (parseInt minEmployees) (parseInt maxEmployees) = true.
Proof.
  split.
  - intros Hrun.
    destruct (truthy minEmployees) eqn:Hmin; cycle 1.
    { exfalso. eapply (findByFilters_no_validation minEmployees maxEmployees nameLike w);
        [by left | by rewrite Hrun]. }
    destruct (truthy maxEmployees) eqn:Hmax; cycle 1.
    { exfalso. eapply (findByFilters_no_validation minEmployees maxEmployees nameLike w);
        [by right | by rewrite Hrun]. }
    destruct (Company.gt _ _) eqn:Hgt; [done|]. exfalso. revert Hrun.
    unfold Company.findByFilters. rewrite Hmin, Hmax, Hgt. cbn [andb].
    destruct (truthy nameLike); [destruct nameLike|].
    all: cbn; unfold mbind, M_bind, lift, query; cbn; try done.
    all: by destruct (execute _ _) as [[?|?] ?].
  - intros (Hmin & Hmax & Hgt). unfold Company.findByFilters.
    by rewrite Hmin, Hmax, Hgt.
Qed.

(** X15: a [nameLike] that is truthy but not a string makes
    [Company.findByFilters] throw a [TypeError] without sending anything,
    unless the validation of the bounds has already refused the call. *)
Theorem findByFilters_nameLike_not_string minEmployees maxEmployees nameLike w :
  truthy nameLike = true →
  (∀ s, nameLike ≠ VStr s) →
  truthy minEmployees && truthy maxEmployees
    && Company.gt (parseInt minEmployees) (parseInt maxEmployees) = false →
  Company.findByFilters minEmployees maxEmployees nameLike w
  = (inl (TypeError "nameLike.toLowerCase is not a function"), w).
Proof.
  intros Hname Hstr Hvalid. unfold Company.findByFilters. rewrite Hvalid, Hname.
  destruct (truthy minEmployees), (truthy maxEmployees);
    destruct nameLike; try discriminate Hname; try reflexivity;
    by edestruct Hstr.
Qed.


(** X17: the search by name ignores case: two non-empty names with the
    same lower-case form give the same run, whatever the other filters
    and the database. *)
Theorem findByFilters_ignores_case minEmployees maxEmployees name1 name2 w :
  name1 ≠ "" → name2 ≠ "" →
  toLowerCase name1 = toLowerCase name2 →
  Company.findByFilters minEmployees maxEmployees (VStr name1) w
  = Company.findByFilters minEmployees maxEmployees (VStr name2) w.
Proof.
  intros H1 H2 Hlower. unfold Company.findByFilters.
  assert (truthy (VStr name1) = true) as -> by (by destruct name1).
  assert (truthy (VStr name2) = true) as -> by (by destruct name2).
  cbn [Company.call_toLowerCase]. by rewrite Hlower.
Qed.

End company_filters.

(** ** helpers/sql.js: requests that share their first properties *)

Section sql_more.
Import JS Sql Spec.
Implicit Types (jsToSql : gmap string string).

(** X18: the builder numbers by position in the enumeration of the
    request.  Take a request whose own properties, in the order in which
    [Object.keys] lists them, are those of [data1] followed by those of
    [data2].  (An object obtained by adding fields to another one is of
    that form only when the added names are new and are not array
    indices: the engine lists index-like keys first, and a repeated key
    overwrites.)  Then its clause is the fragments of [data1] alone, with
    their placeholders, followed by one fragment per property of [data2],
    numbered on from N + 1, and its values are those of [data1] followed
    by those of [data2]. *)
Theorem sqlForPartialUpdate_app (data1 data2 : object) jsToSql :
  data1 ≠ [] →
  let fragments_from (n : nat) (data : object) :=
    zip_with (λ key p, String (ascii_of_nat 34) EmptyString
                         +:+ column_of jsToSql key
                         +:+ String (ascii_of_nat 34) EmptyString +:+ "=" +:+ p)
             data.*1 ((λ index, "$" +:+ pretty index) <$> seq (n + 1) (length data)) in
  ∃ r1 r12,
    sqlForPartialUpdate data1 jsToSql = inr r1
    ∧ sqlForPartialUpdate (data1 ++ data2) jsToSql = inr r12
    ∧ setCols r1 = String.concat ", " (fragments_from 0 data1)
    ∧ setCols r12
      = String.concat ", " (fragments_from 0 data1 ++ fragments_from (length data1) data2)
    ∧ values r1 = data1.*2
    ∧ values r12 = values r1 ++ data2.*2.
Proof.
  intros Hne fragments_from.
  assert (data1 ++ data2 ≠ []) as Hne' by (by destruct data1).
  assert (∀ n data,
            imap (λ idx colName, fragment jsToSql (n + idx) colName) (Object_keys data)
            = fragments_from n data) as Hfrom.
  { intros n data. rewrite imap_set_fragment_from, Object_keys_length.
    unfold fragments_from. by replace (n + 1) with (S n) by lia. }
  eexists _, _.
  split; [by apply sqlForPartialUpdate_nonempty|].
  split; [by apply sqlForPartialUpdate_nonempty|].
  cbn [setCols values]. unfold join. split; [|split; [|split]].
  - f_equal. apply (Hfrom 0 data1).
  - f_equal. rewrite <- (Hfrom 0 data1), <- (Hfrom (length data1) data2).
    unfold Object_keys. rewrite fmap_app, imap_app, length_fmap. reflexivity.
  - reflexivity.
  - unfold Object_values. apply fmap_app.
Qed.

End sql_more.

(** ** Runs on the stand-in engine and database *)

Section more_witnesses.
Import JS Sql Db Spec.

Lemma fragment_inherited_witness :
  fragment ∅ 2 "hasOwnProperty"
  = assignment "function hasOwnProperty() { [native code] }" 3.
Proof. apply (fragment_inherited ∅ 2 "hasOwnProperty"); reflexivity. Defined.

Lemma sqlForPartialUpdate_app_witness :
  let q := String (ascii_of_nat 34) EmptyString in
  ∃ r1 r12,
    sqlForPartialUpdate [("name", VStr "Acme")] ∅ = inr r1
    ∧ sqlForPartialUpdate ([("name", VStr "Acme")] ++ [("logoUrl", VNull)]) ∅ = inr r12
    ∧ setCols r1 = String.concat ", " [q +:+ "name" +:+ q +:+ "=$1"]
    ∧ setCols r12
      = String.concat ", " ([q +:+ "name" +:+ q +:+ "=$1"] ++ [q +:+ "logoUrl" +:+ q +:+ "=$2"])
    ∧ values r1 = [VStr "Acme"]
    ∧ values r12 = values r1 ++ [VNull].
Proof.
  exact (sqlForPartialUpdate_app [("name", VStr "Acme")] [("logoUrl", VNull)] ∅
           ltac:(discriminate)).
Defined.

Lemma get_attaches_company_witness :
  let w := Fixtures.one_row_world in
  let q1 := {| text := Job.get_sql; params := [VNum 7] |} in
  let q2 := {| text := Job.get_company_sql; params := [VStr "acme"] |} in
  ∃ found,
    @Job.get Fixtures.small_engine Fixtures.fixed_table (VNum 7) w
    = (inr found, after w Fixtures.one_row [q1; q2])
    ∧ prop found "company" = VObj Fixtures.job_row
    ∧ ∀ k, k ≠ "company" → prop found k = prop Fixtures.job_row k.
Proof.
  intros w q1 q2.
  apply (@get_attaches_company Fixtures.small_engine Fixtures.fixed_table (VNum 7) w
           Fixtures.job_row [] Fixtures.one_row [Fixtures.job_row] Fixtures.one_row);
    reflexivity.
Defined.

Lemma create_sends_insert_witness :
  let w := Fixtures.empty_world in
  let arg := [("handle", VStr "acme"); ("name", VStr "Acme")] in
  let check := {| text := Company.duplicateCheck_sql; params := [VStr "acme"] |} in
  let insert := {| text := Company.create_sql;
                   params := [VStr "acme"; VStr "Acme"; VUndefined; VUndefined;
                              VUndefined] |} in
  @Company.create Fixtures.small_engine Fixtures.fixed_table arg w
  = (inr VUndefined, after w Fixtures.no_rows [check; insert]).
Proof.
  intros w arg check insert.
  apply (@create_sends_insert Fixtures.small_engine Fixtures.fixed_table arg w
           Fixtures.no_rows).
  reflexivity.
Defined.


Lemma update_text_from_keys_witness :
  let update := @Company.update Fixtures.small_engine Fixtures.fixed_table in
  text <$> sent Fixtures.empty_world
             (update (VStr "acme") [("name", VStr "Acme")] Fixtures.empty_world).2
  = text <$> sent Fixtures.one_row_world
               (update (VStr "initech") [("name", VNull)] Fixtures.one_row_world).2.
Proof.
  intros update.
  apply (@update_text_from_keys Fixtures.small_engine Fixtures.fixed_table).
  reflexivity.
Defined.

Lemma update_not_found_iff_witness :
  let update := @Company.update Fixtures.small_engine Fixtures.fixed_table in
  let w := Fixtures.empty_world in
  let data := [("name", VStr "Acme")] in
  ∃ q,
    sent w (update (VStr "acme") data w).2 = [q]
    ∧ params q = [VStr "Acme"; VStr "acme"]
    ∧ ((update (VStr "acme") data w).1 = inl (NotFoundError "No company: acme")
       ↔ (@execute Fixtures.fixed_table q (store w)).1 = inr [])
    ∧ ∀ company, (update (VStr "acme") data w).1 = inr company
                 ↔ ∃ rows, (@execute Fixtures.fixed_table q (store w)).1
                           = inr (company :: rows).
Proof.
  intros update w data.
  apply (@update_not_found_iff Fixtures.small_engine Fixtures.fixed_table
           (VStr "acme") data w).
  discriminate.
Defined.


Lemma findByFilters_nameLike_not_string_witness :
  @Company.findByFilters Fixtures.small_engine Fixtures.fixed_table
    (VNum 1) (VNum 5) (VNum 42) Fixtures.empty_world
  = (inl (TypeError "nameLike.toLowerCase is not a function"), Fixtures.empty_world).
Proof.
  apply (@findByFilters_nameLike_not_string Fixtures.small_engine Fixtures.fixed_table
           (VNum 1) (VNum 5) (VNum 42) Fixtures.empty_world);
    [reflexivity | discriminate | reflexivity].
Defined.


Lemma findByFilters_ignores_case_witness :
  let findByFilters := @Company.findByFilters Fixtures.small_engine Fixtures.fixed_table in
  findByFilters VUndefined VUndefined (VStr "Net") Fixtures.empty_world
  = findByFilters VUndefined VUndefined (VStr "NET") Fixtures.empty_world.
Proof.
  intros findByFilters.
  apply (@findByFilters_ignores_case Fixtures.small_engine Fixtures.fixed_table);
    [discriminate | discriminate | reflexivity].
Defined.

End more_witnesses.
